(** * celery.registry: the task registry

    A shallow embedding of [celery/registry.py] (Python 2) and the
    properties of its registry operations.

    Python [str] values are byte strings and are modelled by [string];
    dictionaries are finite maps; the dictionary object held in
    [self.data] lives in a store of dictionary objects, so that
    references to it alias. *)

From Stdlib Require Import Ascii String.
From stdpp Require Import base option list strings gmap fin_maps.

Local Open Scope string_scope.

(** ** Strings: [RE_ILLEGAL_CLASS_CHARS] and [name_to_clsname] *)

Module Str.

Definition isdigit (c : ascii) : bool :=
  let n := nat_of_ascii c in (48 <=? n)%nat && (n <=? 57)%nat.

Definition isupper (c : ascii) : bool :=
  let n := nat_of_ascii c in (65 <=? n)%nat && (n <=? 90)%nat.

Definition islower (c : ascii) : bool :=
  let n := nat_of_ascii c in (97 <=? n)%nat && (n <=? 122)%nat.

Definition isalnum (c : ascii) : bool := isdigit c || isupper c || islower c.

Definition toupper (c : ascii) : ascii :=
  if islower c then ascii_of_nat (nat_of_ascii c - 32) else c.

Definition tolower (c : ascii) : ascii :=
  if isupper c then ascii_of_nat (nat_of_ascii c + 32) else c.

(** [str.lower] *)
Fixpoint lower (s : string) : string :=
  match s with
  | EmptyString => EmptyString
  | String c rest => String (tolower c) (lower rest)
  end.

(** [str.capitalize]: the first character upper-cased, the others
    lower-cased. *)
Definition capitalize (s : string) : string :=
  match s with
  | EmptyString => EmptyString
  | String c rest => String (toupper c) (lower rest)
  end.

(** ["".join(segments)] *)
Definition join (segments : list string) : string :=
  fold_right String.append EmptyString segments.

(** Puts a character in front of the first segment of a split. *)
Definition push (c : ascii) (segments : list string) : list string :=
  match segments with
  | [] => [String c EmptyString]
  | seg :: segs => String c seg :: segs
  end.

End Str.

(** [RE_ILLEGAL_CLASS_CHARS = re.compile(r"[\W_]")]: one character that
    is not a word character, or the underscore; without the LOCALE and
    UNICODE flags the word characters are [[a-zA-Z0-9_]], so the class is
    the complement of the ASCII letters and digits. *)
Definition RE_ILLEGAL_CLASS_CHARS (c : ascii) : bool := negb (Str.isalnum c).

(** [RE_ILLEGAL_CLASS_CHARS.split(name)]: the pattern matches exactly
    one character, so every illegal character ends a segment and
    [k] illegal characters give [k + 1] segments, empty ones included. *)
Fixpoint RE_ILLEGAL_CLASS_CHARS_split (name : string) : list string :=
  match name with
  | EmptyString => [EmptyString]
  | String c rest =>
      if RE_ILLEGAL_CLASS_CHARS c
      then EmptyString :: RE_ILLEGAL_CLASS_CHARS_split rest
      else Str.push c (RE_ILLEGAL_CLASS_CHARS_split rest)
  end.

Definition name_to_clsname (name : string) : string :=
  Str.join (map Str.capitalize (RE_ILLEGAL_CLASS_CHARS_split name)).

(** The derivation as the specification words it: the name is split on
    maximal runs of illegal characters ([re.split] with [[\W_]+]).
    [in_run] tells that the previous character was illegal, so that the
    current run has already closed a segment. *)
Fixpoint split_on_runs_from (in_run : bool) (name : string) : list string :=
  match name with
  | EmptyString => [EmptyString]
  | String c rest =>
      if RE_ILLEGAL_CLASS_CHARS c
      then (if in_run
            then split_on_runs_from true rest
            else EmptyString :: split_on_runs_from true rest)
      else Str.push c (split_on_runs_from false rest)
  end.

Definition split_on_runs (name : string) : list string :=
  split_on_runs_from false name.

Definition spec_clsname (name : string) : string :=
  Str.join (map Str.capitalize (split_on_runs name)).

(** ** Python objects

    [atom] is what a task name or a task type can be: [None] or a
    [str].  They are the keys of the registry's dictionary. *)

Inductive atom : Type :=
| ANone
| AStr (s : string).

#[global] Instance atom_eq_dec : EqDecision atom.
Proof. solve_decision. Defined.

#[global] Instance atom_countable : Countable atom.
Proof.
  apply (inj_countable'
           (fun a => match a with ANone => None | AStr s => Some s end)
           (fun o => match o with None => ANone | Some s => AStr s end)).
  intros []; reflexivity.
Defined.

(** Truth value of a name, as [if not name:] tests it. *)
Definition truthy (a : atom) : bool :=
  match a with
  | ANone => false
  | AStr EmptyString => false
  | AStr (String _ _) => true
  end.

(** The objects that reach the registry, as far as the registry looks
    at them: it probes the attributes [run], [name] and [type], and it
    calls the object.

    - [VFun f fname]: a function object; [f] identifies its code and
      [fname] is its [name] attribute when one was assigned to it
      (functions have none of their own).  A function object has no
      [run] and no [type] attribute.
    - [VClass c] and [VInst c]: a class, and an instance of it with an
      empty instance dictionary.
    - [Class clsname task_based a_name a_type a_run]: a class called
      [clsname]; [task_based] tells that [celery.task.base.Task] is among
      its bases; [a_name], [a_type] and [a_run] are its attributes of
      these names as attribute lookup finds them (own dictionary first,
      then the bases), [None] when the lookup fails.  Classes
      define no construction or call protocol of their own.
    - [Runmethod task]: the function [runmethod] that [register] defines,
      closed over [task]; [Method m]: any other method, [m] identifies
      its code. *)
Inductive value : Type :=
| VNone
| VStr (s : string)
| VBool (b : bool)
| VFun (f : nat) (fname : option atom)
| VClass (c : class)
| VInst (c : class)
with class : Type :=
| Class (clsname : string) (task_based : bool)
        (a_name a_type : option atom) (a_run : option method)
with method : Type :=
| Runmethod (task : value)
| Method (m : nat).

Definition cls_task_based (c : class) : bool :=
  match c with Class _ b _ _ _ => b end.
Definition cls_attr_name (c : class) : option atom :=
  match c with Class _ _ a _ _ => a end.
Definition cls_attr_type (c : class) : option atom :=
  match c with Class _ _ _ t _ => t end.
Definition cls_attr_run (c : class) : option method :=
  match c with Class _ _ _ _ r => r end.

Definition value_of (a : atom) : value :=
  match a with
  | ANone => VNone
  | AStr s => VStr s
  end.

(** The dictionary key an object is; the registry only ever stores
    under [None] and [str] keys, so any other object is no key of it. *)
Definition key_of (v : value) : option atom :=
  match v with
  | VNone => Some ANone
  | VStr s => Some (AStr s)
  | _ => None
  end.

(** [*args, **kwargs] *)
Definition arguments : Type := list value * list (string * value).

Definition no_arguments : arguments := ([], []).

Definition is_no_arguments (args : arguments) : bool :=
  match args with
  | ([], []) => true
  | _ => false
  end.

(** ** Exceptions and results *)

Inductive exn : Type :=
| AlreadyRegistered (msg : string)
| NotRegistered (msg : string)
| KeyError (key : value)
| AttributeError (attr : string)
| TypeError (msg : string)
| Raised (e : nat).

Inductive result (A : Type) : Type :=
| Ok (a : A)
| Err (e : exn).

Arguments Ok {A} a.
Arguments Err {A} e.

Definition result_bind {A B : Type} (r : result A) (k : A -> result B)
  : result B :=
  match r with
  | Ok a => k a
  | Err e => Err e
  end.

(** ** The code around the registry

    [register] calls into code that lives outside [registry.py]: the
    functions and methods of the caller, and the base class
    [celery.task.base.Task], which the registry imports.  Their
    behaviour is a parameter of the development.

    - [fun_sem f args]: the call of function [f].
    - [method_sem m self args]: the call of method [m] on [self].
    - [Task_init self args]: [Task.__init__], run on a new instance of a
      class based on [Task].
    - [Task_call self run args]: the call [self( *args, **kwargs)] of an
      instance of a class based on [Task], where [run] is its bound
      method [self.run].  A [Task] whose instances are not callable
      answers [TypeError]; one that defines
      [__call__ = lambda self, *a, **k: self.run( *a, **k)] answers
      [run args].
    - [repr v]: [str(v)] for the objects that are neither [None] nor a
      [str].

    None of these calls is taken to reach the registry: they return a
    value or raise, and leave the store of dictionaries alone. *)
Class Host : Type := {
  fun_sem : nat -> arguments -> result value;
  method_sem : nat -> value -> arguments -> result value;
  Task_init : value -> arguments -> result unit;
  Task_call : value -> (arguments -> result value) -> arguments -> result value;
  repr : value -> string;
}.

Section Objects.
Context `{!Host}.

(** [hasattr(v, "run")] *)
Definition hasattr_run (v : value) : bool :=
  match v with
  | VClass c | VInst c => bool_decide (is_Some (cls_attr_run c))
  | _ => false
  end.

(** [getattr(v, "name")], that is [v.name] *)
Definition getattr_name (v : value) : result atom :=
  match v with
  | VFun _ fname => from_option Ok (Err (AttributeError "name")) fname
  | VClass c | VInst c =>
      from_option Ok (Err (AttributeError "name")) (cls_attr_name c)
  | _ => Err (AttributeError "name")
  end.

(** [v.type] *)
Definition getattr_type (v : value) : result atom :=
  match v with
  | VClass c | VInst c =>
      from_option Ok (Err (AttributeError "type")) (cls_attr_type c)
  | _ => Err (AttributeError "type")
  end.

(** [str(v)], as the ["%s"] of the error messages formats a name. *)
Definition str (v : value) : string :=
  match v with
  | VNone => "None"
  | VStr s => s
  | _ => repr v
  end.

(** [v( *args, **kwargs)] *)
Fixpoint call (v : value) (args : arguments) {struct v} : result value :=
  match v with
  | VFun f _ => fun_sem f args
  | VClass c =>
      if cls_task_based c
      then result_bind (Task_init (VInst c) args) (fun _ => Ok (VInst c))
      else if is_no_arguments args then Ok (VInst c)
           else Err (TypeError "this constructor takes no arguments")
  | VInst (Class _ true _ _ a_run) =>
      Task_call v
        (fun a =>
           match a_run with
           | Some (Runmethod task) => call task a
           | Some (Method m) => method_sem m v a
           | None => Err (AttributeError "run")
           end)
        args
  | _ => Err (TypeError "object is not callable")
  end.

(** [handler.run( *args, **kwargs)] on an instance: the class attribute
    [run] bound to the instance.  [runmethod(self, *args, **kwargs)]
    returns [task( *args, **kwargs)]. *)
Definition call_run (handler : value) (args : arguments) : result value :=
  match handler with
  | VInst c =>
      match cls_attr_run c with
      | Some (Runmethod task) => call task args
      | Some (Method m) => method_sem m handler args
      | None => Err (AttributeError "run")
      end
  | VClass c =>
      match cls_attr_run c with
      | Some _ => Err (TypeError "unbound method run() must be called with an instance")
      | None => Err (AttributeError "run")
      end
  | _ => Err (AttributeError "run")
  end.

End Objects.

(** ** The store of dictionary objects

    A dictionary is an object with an identity: [self.data] holds a
    reference ([loc]) to it, and every holder of the reference sees the
    updates made through any other. *)

Abbreviation loc := nat (only parsing).
Abbreviation dict := (gmap atom value) (only parsing).
Abbreviation heap := (gmap nat (gmap atom value)) (only parsing).

Definition dict_at (h : heap) (l : loc) : dict := default ∅ (h !! l).

(** Computations on the store that may raise. *)
Definition M (A : Type) : Type := heap -> result A * heap.

Definition ret {A : Type} (a : A) : M A := fun h => (Ok a, h).

Definition raise {A : Type} (e : exn) : M A := fun h => (Err e, h).

Definition lift {A : Type} (r : result A) : M A := fun h => (r, h).

Definition bind {A B : Type} (m : M A) (k : A -> M B) : M B :=
  fun h =>
    match m h with
    | (Ok a, h') => k a h'
    | (Err e, h') => (Err e, h')
    end.

Notation "x <- m ;; k" := (bind m (fun x => k))
  (at level 100, m at next level, right associativity).

(** [{}] and [dict(items)]: a new dictionary object; of two items with
    one key the later one stays. *)
Definition dict_new (items : list (atom * value)) : M loc :=
  fun h =>
    let l := fresh (dom h) in
    (Ok l, <[l := list_to_map (reverse items)]> h).

(** [k in d] *)
Definition dict_contains (d : loc) (k : value) : M bool :=
  fun h =>
    match key_of k with
    | Some a => (Ok (bool_decide (is_Some (dict_at h d !! a))), h)
    | None => (Ok false, h)
    end.

(** [d[k]] *)
Definition dict_getitem (d : loc) (k : value) : M value :=
  fun h =>
    match key_of k ≫= (fun a => dict_at h d !! a) with
    | Some v => (Ok v, h)
    | None => (Err (KeyError k), h)
    end.

(** [d[k] = v] *)
Definition dict_setitem (d : loc) (k : atom) (v : value) : M unit :=
  fun h => (Ok tt, <[d := <[k := v]> (dict_at h d)]> h).

(** [del d[k]] *)
Definition dict_delitem (d : loc) (k : value) : M unit :=
  fun h =>
    match key_of k with
    | Some a =>
        match dict_at h d !! a with
        | Some _ => (Ok tt, <[d := delete a (dict_at h d)]> h)
        | None => (Err (KeyError k), h)
        end
    | None => (Err (KeyError k), h)
    end.

(** [d.items()] *)
Definition dict_items (d : loc) : M (list (atom * value)) :=
  fun h => (Ok (map_to_list (dict_at h d)), h).

(** ** [TaskRegistry] *)

Record TaskRegistry : Type := { data : loc }.

(** [__init__]: [self.data = {}] *)
Definition TaskRegistry_init : M TaskRegistry :=
  d <- dict_new [] ;;
  ret {| data := d |}.

Section Registry.
Context `{!Host}.

(** The class that [register] builds for a plain callable:
    [type(clsname, (Task, ), {"name": name, "type": "regular",
    "run": runmethod})]. *)
Definition function_task_class (clsname : string) (name : atom) (task : value)
  : class :=
  Class clsname true (Some name) (Some (AStr "regular"))
        (Some (Runmethod task)).

(** [if not name: name = getattr(task, "name")]: the name that
    [register] goes on with. *)
Definition resolved_name (task : value) (name : atom) : result atom :=
  if negb (truthy name) then getattr_name task else Ok name.

Definition register (self : TaskRegistry) (task : value) (name : atom)
  : M unit :=
  let is_class := hasattr_run task in
  name <- lift (resolved_name task name) ;;
  present <- dict_contains (data self) (value_of name) ;;
  if present : bool
  then raise (AlreadyRegistered
                ("Task with name " ++ str (value_of name)
                   ++ " is already registered."))
  else
    taskcls <-
      (if is_class
       then ret task
       else
         clsname <- lift (match name with
                          | AStr s => Ok (name_to_clsname s)
                          | ANone => Err (TypeError "expected string or buffer")
                          end) ;;
         lift (call (VClass (function_task_class clsname name task))
                    no_arguments)) ;;
    handler <- lift (call taskcls no_arguments) ;;
    dict_setitem (data self) name handler.

Definition unregister (self : TaskRegistry) (name : value) : M unit :=
  name <- (if hasattr_run name
           then a <- lift (getattr_name name) ;; ret (value_of a)
           else ret name) ;;
  present <- dict_contains (data self) name ;;
  if negb present
  then raise (NotRegistered
                ("Task with name " ++ str name ++ " is not registered."))
  else dict_delitem (data self) name.

(** [get_all] returns [self.data]: the reference, not a copy. *)
Definition get_all (self : TaskRegistry) : M loc :=
  ret (data self).

(** The generator of [filter_types]: the items whose [task.type]
    equals [type], in the order of the items. *)
Fixpoint filter_items (items : list (atom * value)) (type : atom)
  : result (list (atom * value)) :=
  match items with
  | [] => Ok []
  | (task_name, task) :: rest =>
      result_bind (getattr_type task) (fun t =>
      result_bind (filter_items rest type) (fun kept =>
      Ok (if bool_decide (t = type) then (task_name, task) :: kept else kept)))
  end.

Definition filter_types (self : TaskRegistry) (type : atom) : M loc :=
  items <- dict_items (data self) ;;
  kept <- lift (filter_items items type) ;;
  dict_new kept.

Definition get_all_regular (self : TaskRegistry) : M loc :=
  filter_types self (AStr "regular").

Definition get_all_periodic (self : TaskRegistry) : M loc :=
  filter_types self (AStr "periodic").

Definition get_task (self : TaskRegistry) (name : atom) : M value :=
  dict_getitem (data self) (value_of name).

(** A call of one of the two mutators, and a sequence of such calls;
    a call that raises leaves the store as it was when it raised and the
    caller goes on. *)
Inductive mutation : Type :=
| Register (task : value) (name : atom)
| Unregister (name : value).

Definition mutate (self : TaskRegistry) (c : mutation) : M unit :=
  match c with
  | Register task name => register self task name
  | Unregister name => unregister self name
  end.

Fixpoint mutations (self : TaskRegistry) (cs : list mutation) (h : heap)
  : heap :=
  match cs with
  | [] => h
  | c :: rest => mutations self rest (snd (mutate self c h))
  end.

End Registry.

(** [tasks = TaskRegistry()]: the global registry, made in the empty
    store. *)
Definition tasks : result TaskRegistry * heap := TaskRegistry_init ∅.

(** ** Two hosts, and the objects of the examples

    The functions of a caller: function [0] is
    [def func_task( **kwargs): return True], function [1] is
    [def send_email(to): return "sent to " + to], any other one raises.
    Method [0] is [def run(self, **kwargs): return True]. *)

Definition example_fun_sem (f : nat) (args : arguments) : result value :=
  match f, args with
  | 0, ([], _) => Ok (VBool true)
  | 0, _ => Err (TypeError "func_task() takes exactly 0 arguments")
  | 1, ([VStr to], []) => Ok (VStr ("sent to " ++ to))
  | 1, _ => Err (TypeError "send_email() takes exactly 1 argument")
  | _, _ => Err (Raised f)
  end.

Definition example_method_sem (m : nat) (self : value) (args : arguments)
  : result value :=
  match m, args with
  | 0, ([], _) => Ok (VBool true)
  | _, _ => Err (Raised m)
  end.

(** A [Task] whose instances are called by [__call__], which forwards to
    [run]: [def __call__(self, *args, **kwargs): return self.run( *args,
    **kwargs)]. *)
Definition forwarding_host : Host := {|
  fun_sem := example_fun_sem;
  method_sem := example_method_sem;
  Task_init := fun _ _ => Ok tt;
  Task_call := fun _ run args => run args;
  repr := fun _ => "<object>";
|}.

(** A [Task] that has the attributes of the handler contract ([name],
    [type], [run]) and no [__call__]: its instances are not callable. *)
Definition contract_host : Host := {|
  fun_sem := example_fun_sem;
  method_sem := example_method_sem;
  Task_init := fun _ _ => Ok tt;
  Task_call := fun _ _ _ => Err (TypeError "object is not callable");
  repr := fun _ => "<object>";
|}.

(** [def func_task( **kwargs): return True], and the same function after
    [func_task.name = "func_task"]. *)
Definition func_task : value := VFun 0 None.
Definition named_func_task : value := VFun 0 (Some (AStr "func_task")).

(** [def send_email(to): ...] *)
Definition send_email : value := VFun 1 None.

(** [class TaskA(Task): name = "a"; type = "regular"; run = method 0] *)
Definition TaskA : class :=
  Class "TaskA" true (Some (AStr "a")) (Some (AStr "regular")) (Some (Method 0)).

(** [class TaskB(Task): name = "b"; type = "periodic"; run = method 0] *)
Definition TaskB : class :=
  Class "TaskB" true (Some (AStr "b")) (Some (AStr "periodic")) (Some (Method 0)).

(** [class Untyped: name = "u"; run = method 0]: a class with a [run]
    and a [name] and no [type], not based on [Task]. *)
Definition Untyped : class :=
  Class "Untyped" false (Some (AStr "u")) None (Some (Method 0)).

(** A registry whose dictionary is object [0] of the store. *)
Definition registry0 : TaskRegistry := {| data := 0 |}.

(** The store that holds one empty dictionary, and the one whose
    dictionary is [{"a": TaskA(), "b": TaskB()}]. *)
Definition empty_store : heap := {[ 0 := ∅ ]}.

Definition store_ab : heap :=
  {[ 0 := <[AStr "a" := VInst TaskA]> {[ AStr "b" := VInst TaskB ]} ]}.

(** [all(p(c) for c in s)] *)
Fixpoint all_chars (p : ascii -> bool) (s : string) : bool :=
  match s with
  | EmptyString => true
  | String c rest => p c && all_chars p rest
  end.

(** * Properties *)

(** ** [name_to_clsname] *)

Section Clsname.

Local Abbreviation cap segments := (Str.join (map Str.capitalize segments)).

Lemma cap_cons (seg : string) (segs : list string) :
  cap (seg :: segs) = Str.capitalize seg ++ cap segs.
Proof. reflexivity. Qed.

Lemma cap_empty_cons (segs : list string) : cap (EmptyString :: segs) = cap segs.
Proof. reflexivity. Qed.

(** The two splits agree on the first segment when no run is open, and
    on what the later segments are joined to in both cases. *)
Lemma split_on_runs_agree (name : string) :
  (exists seg t1 t2,
      RE_ILLEGAL_CLASS_CHARS_split name = seg :: t1
      /\ split_on_runs_from false name = seg :: t2
      /\ cap t1 = cap t2)
  /\ cap (split_on_runs_from true name) = cap (RE_ILLEGAL_CLASS_CHARS_split name).
Proof.
  induction name as [|c rest [(seg & t1 & t2 & E1 & E2 & Et) IHrun]]; simpl.
  - split; [exists EmptyString, [], []|]; auto.
  - destruct (RE_ILLEGAL_CLASS_CHARS c).
    + split.
      * exists EmptyString, (RE_ILLEGAL_CLASS_CHARS_split rest),
          (split_on_runs_from true rest).
        auto.
      * rewrite cap_empty_cons. exact IHrun.
    + rewrite E1, E2. simpl. split.
      * exists (String c seg), t1, t2. auto.
      * f_equal. symmetry. exact Et.
Qed.

Lemma name_to_clsname_on_runs (name : string) :
  name_to_clsname name = spec_clsname name.
Proof.
  unfold name_to_clsname, spec_clsname, split_on_runs.
  destruct (split_on_runs_agree name) as [(seg & t1 & t2 & -> & -> & Et) _].
  rewrite !cap_cons. f_equal. exact Et.
Qed.

End Clsname.

(** C7: the class-style identifier that [name_to_clsname] computes is the
    one got by splitting the name on runs of characters that are not
    letters or digits (so also on underscores), capitalizing every
    segment and concatenating them; ["send_email"] gives ["SendEmail"]
    and ["send-email!!2"] gives ["SendEmail2"]. *)
Theorem name_to_clsname_spec :
  (forall name : string,
      name_to_clsname name
      = Str.join (map Str.capitalize (split_on_runs name)))
  /\ name_to_clsname "send_email" = "SendEmail"
  /\ name_to_clsname "send-email!!2" = "SendEmail2".
Proof.
  split; [exact name_to_clsname_on_runs | split; reflexivity].
Qed.

(** ** The registry operations *)

Section RegistryFacts.
Context `{!Host}.
Implicit Types (self : TaskRegistry) (task v : value) (name k : atom).

Lemma key_of_value_of k : key_of (value_of k) = Some k.
Proof. destruct k; reflexivity. Qed.

Lemma dict_contains_key (d : loc) k (h : heap) :
  dict_contains d (value_of k) h
  = (Ok (bool_decide (is_Some (dict_at h d !! k))), h).
Proof. unfold dict_contains. rewrite key_of_value_of. reflexivity. Qed.

Lemma dict_contains_present (d : loc) k v (h : heap) :
  dict_at h d !! k = Some v -> dict_contains d (value_of k) h = (Ok true, h).
Proof.
  intros Hk. rewrite dict_contains_key, Hk.
  rewrite bool_decide_eq_true_2; eauto.
Qed.

Lemma dict_contains_absent (d : loc) k (h : heap) :
  dict_at h d !! k = None -> dict_contains d (value_of k) h = (Ok false, h).
Proof.
  intros Hk. rewrite dict_contains_key, Hk.
  rewrite bool_decide_eq_false_2; [reflexivity | apply is_Some_None].
Qed.

Lemma hasattr_run_value_of k : hasattr_run (value_of k) = false.
Proof. destruct k; reflexivity. Qed.

(** C2: when the name that [register] resolves is already a key of the
    registry's dictionary, [register] raises [AlreadyRegistered] with
    the message that carries that name, and the store, hence the
    dictionary, is the one of before the call. *)
Theorem register_already_registered self task name h k v :
  resolved_name task name = Ok k ->
  dict_at h (data self) !! k = Some v ->
  register self task name h
  = (Err (AlreadyRegistered
            ("Task with name " ++ str (value_of k)
               ++ " is already registered.")), h).
Proof.
  intros Hname Hk. unfold register, bind, lift, raise.
  rewrite Hname. rewrite (dict_contains_present _ _ _ _ Hk). reflexivity.
Qed.

(** C9: called without a name (or with an empty one) on an object that
    has no [name] attribute, [register] raises the [AttributeError] of
    the failed attribute lookup and leaves the store as it was. *)
Theorem register_undefined_name self task name h :
  truthy name = false ->
  getattr_name task = Err (AttributeError "name") ->
  register self task name h = (Err (AttributeError "name"), h).
Proof.
  intros Hname Hattr. unfold register, bind, lift, resolved_name.
  rewrite Hname. simpl. rewrite Hattr. reflexivity.
Qed.

(** An object without a [name] attribute fails the lookup in one way
    only. *)
Lemma getattr_name_error task e :
  getattr_name task = Err e -> e = AttributeError "name".
Proof.
  destruct task as [| | |f [a|]|[n b [a|] t r]|[n b [a|] t r]]; simpl;
    congruence.
Qed.

Lemma get_task_absent self name h :
  dict_at h (data self) !! name = None ->
  get_task self name h = (Err (KeyError (value_of name)), h).
Proof.
  intros Hk. unfold get_task, dict_getitem.
  rewrite key_of_value_of. simpl. rewrite Hk. reflexivity.
Qed.

Lemma get_task_present self name v h :
  dict_at h (data self) !! name = Some v ->
  get_task self name h = (Ok v, h).
Proof.
  intros Hk. unfold get_task, dict_getitem.
  rewrite key_of_value_of. simpl. rewrite Hk. reflexivity.
Qed.

Lemma dict_at_insert (h : heap) (d : loc) (m : gmap atom value) :
  dict_at (<[d := m]> h) d = m.
Proof. unfold dict_at. rewrite lookup_insert_eq. reflexivity. Qed.

(** What [unregister] does once its argument is resolved to the key
    [k]. *)
Lemma unregister_key self v k h :
  v = value_of k \/ (hasattr_run v = true /\ getattr_name v = Ok k) ->
  unregister self v h
  = match dict_at h (data self) !! k with
    | Some _ =>
        (Ok tt, <[data self := delete k (dict_at h (data self))]> h)
    | None =>
        (Err (NotRegistered
                ("Task with name " ++ str (value_of k)
                   ++ " is not registered.")), h)
    end.
Proof.
  intros Hv.
  assert ((present <- dict_contains (data self) (value_of k) ;;
           if negb present
           then raise (NotRegistered
                         ("Task with name " ++ str (value_of k)
                            ++ " is not registered."))
           else dict_delitem (data self) (value_of k)) h
          = match dict_at h (data self) !! k with
            | Some _ =>
                (Ok tt, <[data self := delete k (dict_at h (data self))]> h)
            | None =>
                (Err (NotRegistered
                        ("Task with name " ++ str (value_of k)
                           ++ " is not registered.")), h)
            end) as Hgo.
  { unfold bind. rewrite dict_contains_key.
    unfold dict_delitem, raise. rewrite key_of_value_of.
    destruct (dict_at h (data self) !! k) as [x|] eqn:Hk.
    - rewrite bool_decide_eq_true_2 by eauto. simpl. rewrite Hk. reflexivity.
    - rewrite bool_decide_eq_false_2 by apply is_Some_None. reflexivity. }
  rewrite <- Hgo. destruct Hv as [->|[Hrun Hname]].
  - unfold unregister. rewrite hasattr_run_value_of. reflexivity.
  - unfold unregister. rewrite Hrun. unfold bind at 1 2, lift, ret.
    rewrite Hname. reflexivity.
Qed.

(** C5: the key of [unregister] is its argument when that is a plain
    name, and the [name] attribute of its argument when that has a [run]
    attribute.  When the key is not in the dictionary, [unregister]
    raises [NotRegistered] with the message that carries the name and
    the store is unchanged; when it is, the call succeeds, the
    dictionary loses exactly that entry and no other dictionary of the
    store changes. *)
Theorem unregister_by_name_or_task self v k h :
  v = value_of k \/ (hasattr_run v = true /\ getattr_name v = Ok k) ->
  (dict_at h (data self) !! k = None ->
   unregister self v h
   = (Err (NotRegistered
             ("Task with name " ++ str (value_of k)
                ++ " is not registered.")), h))
  /\ (forall x, dict_at h (data self) !! k = Some x ->
       exists h',
         unregister self v h = (Ok tt, h')
         /\ dict_at h' (data self) = delete k (dict_at h (data self))
         /\ forall d', d' <> data self -> h' !! d' = h !! d').
Proof.
  intros Hv. rewrite (unregister_key _ _ _ _ Hv). split.
  - intros ->. reflexivity.
  - intros x ->. eexists. split; [reflexivity|]. split.
    + apply dict_at_insert.
    + intros d' Hd. apply lookup_insert_ne. auto.
Qed.

(** C6: [get_task] on a name that is not in the dictionary, in
    particular on the name that an [unregister] has just removed, raises
    the [KeyError] of the dictionary for that name, returns no value and
    leaves the store as it is. *)
Theorem get_task_not_registered self name h :
  (dict_at h (data self) !! name = None
   \/ exists v h0,
       (v = value_of name
        \/ (hasattr_run v = true /\ getattr_name v = Ok name))
       /\ unregister self v h0 = (Ok tt, h)) ->
  get_task self name h = (Err (KeyError (value_of name)), h).
Proof.
  intros [Habsent|(v & h0 & Hv & Hun)]; apply get_task_absent; [exact Habsent|].
  rewrite (unregister_key _ _ _ _ Hv) in Hun.
  destruct (dict_at h0 (data self) !! name); [|discriminate].
  injection Hun as <-. rewrite dict_at_insert. apply lookup_delete_eq.
Qed.

End RegistryFacts.

Lemma register_already_registered_witness :
  register (H := contract_host) registry0 (VClass TaskB) (AStr "a") store_ab
  = (Err (AlreadyRegistered "Task with name a is already registered."),
     store_ab).
Proof.
  apply (register_already_registered (H := contract_host)
           registry0 (VClass TaskB) (AStr "a") store_ab
           (AStr "a") (VInst TaskA)); reflexivity.
Defined.

Lemma register_undefined_name_witness :
  register (H := contract_host) registry0 func_task ANone store_ab
  = (Err (AttributeError "name"), store_ab).
Proof.
  apply (register_undefined_name (H := contract_host)
           registry0 func_task ANone store_ab); reflexivity.
Defined.

Lemma unregister_by_name_or_task_witness :
  unregister (H := contract_host) registry0 (VStr "c") store_ab
  = (Err (NotRegistered "Task with name c is not registered."), store_ab)
  /\ exists h',
      unregister (H := contract_host) registry0 (VClass TaskA) store_ab
      = (Ok tt, h')
      /\ dict_at h' 0 = delete (AStr "a") (dict_at store_ab 0)
      /\ forall d', d' <> 0 -> h' !! d' = store_ab !! d'.
Proof.
  split.
  - apply (unregister_by_name_or_task (H := contract_host)
             registry0 (VStr "c") (AStr "c") store_ab);
      [left; reflexivity | reflexivity].
  - apply (proj2 (unregister_by_name_or_task (H := contract_host)
                    registry0 (VClass TaskA) (AStr "a") store_ab
                    (or_intror (conj eq_refl eq_refl)))
             (VInst TaskA)).
    reflexivity.
Defined.

Lemma get_task_not_registered_witness :
  get_task registry0 (AStr "c") store_ab
  = (Err (KeyError (VStr "c")), store_ab).
Proof.
  apply (get_task_not_registered (H := contract_host)
           registry0 (AStr "c") store_ab).
  left. reflexivity.
Defined.

(** ** What [register] stores *)

Section RegisterFacts.
Context `{!Host}.
Implicit Types (self : TaskRegistry) (task v : value) (name k : atom).

(** The native path: the object that has a [run] attribute is called,
    and what the call returns is stored. *)
Lemma register_native self task name k h :
  hasattr_run task = true ->
  resolved_name task name = Ok k ->
  dict_at h (data self) !! k = None ->
  register self task name h
  = match call task no_arguments with
    | Ok v => (Ok tt, <[data self := <[k := v]> (dict_at h (data self))]> h)
    | Err e => (Err e, h)
    end.
Proof.
  intros Hrun Hname Hk. unfold register, bind, lift, ret.
  rewrite Hname, (dict_contains_absent _ _ _ Hk), Hrun.
  destruct (call task no_arguments); reflexivity.
Qed.

(** The path of the plain callables: the class is built and
    instantiated, the instance is called, and what that call returns is
    stored. *)
Lemma register_function self task name s h :
  hasattr_run task = false ->
  resolved_name task name = Ok (AStr s) ->
  dict_at h (data self) !! AStr s = None ->
  register self task name h
  = match call (VClass (function_task_class (name_to_clsname s) (AStr s) task))
               no_arguments with
    | Ok taskcls =>
        match call taskcls no_arguments with
        | Ok v =>
            (Ok tt,
             <[data self := <[AStr s := v]> (dict_at h (data self))]> h)
        | Err e => (Err e, h)
        end
    | Err e => (Err e, h)
    end.
Proof.
  intros Hrun Hname Hk. unfold register, bind, lift, ret.
  rewrite Hname, (dict_contains_absent _ _ _ Hk), Hrun.
  destruct (call (VClass _) no_arguments) as [taskcls|e]; [|reflexivity].
  destruct (call taskcls no_arguments); reflexivity.
Qed.

Lemma resolved_name_given task (s : string) :
  s <> EmptyString -> resolved_name task (AStr s) = Ok (AStr s).
Proof. intros Hs. destruct s; [congruence | reflexivity]. Qed.

(** The instance that [register] builds for a plain callable has the
    name it was registered under, the type ["regular"], and a [run] that
    forwards its arguments to the callable and hands back its result or
    its exception. *)
Lemma function_task_instance (clsname : string) name task :
  let handler := VInst (function_task_class clsname name task) in
  getattr_name handler = Ok name
  /\ getattr_type handler = Ok (AStr "regular")
  /\ hasattr_run handler = true
  /\ forall args, call_run handler args = call task args.
Proof. repeat split. Qed.

(** The call of that instance is the call that [Task] defines for its
    instances, given the forwarding [run]. *)
Lemma call_function_task_instance (clsname : string) name task args :
  call (VInst (function_task_class clsname name task)) args
  = Task_call (VInst (function_task_class clsname name task)) (call task) args.
Proof. reflexivity. Qed.

(** C1, as the code has it for handler classes: registered under a
    non-empty name that is not in the dictionary, a class with a [run]
    attribute whose instantiation succeeds is instantiated and the
    instance is stored under that name; [get_task] on the name returns
    the instance.  The [name] attribute of the instance is the one of
    the class, so it is the registered name exactly when the class is
    named so. *)
Theorem register_native_then_get_task self (c : class) (s : string) h :
  s <> EmptyString ->
  is_Some (cls_attr_run c) ->
  dict_at h (data self) !! AStr s = None ->
  call (VClass c) no_arguments = Ok (VInst c) ->
  exists h',
    register self (VClass c) (AStr s) h = (Ok tt, h')
    /\ dict_at h' (data self) = <[AStr s := VInst c]> (dict_at h (data self))
    /\ get_task self (AStr s) h' = (Ok (VInst c), h')
    /\ getattr_name (VInst c) = getattr_name (VClass c)
    /\ (getattr_name (VInst c) = Ok (AStr s)
        <-> cls_attr_name c = Some (AStr s)).
Proof.
  intros Hs Hrun Hk Hnew. eexists. split; [|split; [|split; [|split]]].
  - rewrite (register_native self (VClass c) (AStr s) (AStr s) h); auto.
    + rewrite Hnew. reflexivity.
    + simpl. apply bool_decide_eq_true_2. exact Hrun.
    + apply resolved_name_given. exact Hs.
  - apply dict_at_insert.
  - apply get_task_present. rewrite dict_at_insert. apply lookup_insert_eq.
  - reflexivity.
  - destruct c as [n b [a|] t r]; simpl; split; congruence.
Qed.

(** C4, as the code has it: for a plain callable registered under a
    non-empty name that is not in the dictionary, once the instance of
    the generated class exists, [register] calls this instance and
    stores what the call returns, or raises what it raises and stores
    nothing.  The call of the instance is [Task]'s, applied to the
    instance, its forwarding [run] and no arguments: the stored value is
    the instance only if that call returns the instance. *)
Theorem register_function_stores_call_result self task (s : string) h :
  hasattr_run task = false ->
  s <> EmptyString ->
  dict_at h (data self) !! AStr s = None ->
  Task_init (VInst (function_task_class (name_to_clsname s) (AStr s) task))
            no_arguments = Ok tt ->
  register self task (AStr s) h
  = match Task_call
            (VInst (function_task_class (name_to_clsname s) (AStr s) task))
            (call task) no_arguments with
    | Ok v =>
        (Ok tt, <[data self := <[AStr s := v]> (dict_at h (data self))]> h)
    | Err e => (Err e, h)
    end.
Proof.
  intros Hrun Hs Hk Hinit.
  rewrite (register_function self task (AStr s) s h Hrun
             (resolved_name_given task s Hs) Hk).
  simpl. rewrite Hinit. reflexivity.
Qed.

End RegisterFacts.

(** C1 fails for a handler class registered under another name than its
    own: [register(TaskA, "b")] succeeds on a registry without ["b"], and
    [get_task("b")] returns the instance of [TaskA], whose [name] is
    ["a"], not ["b"]. *)
Lemma register_override_keeps_class_name :
  dict_at empty_store 0 !! AStr "b" = None
  /\ register (H := contract_host) registry0 (VClass TaskA) (AStr "b")
       empty_store
     = (Ok tt, {[ 0 := {[ AStr "b" := VInst TaskA ]} ]})
  /\ get_task registry0 (AStr "b") {[ 0 := {[ AStr "b" := VInst TaskA ]} ]}
     = (Ok (VInst TaskA), {[ 0 := {[ AStr "b" := VInst TaskA ]} ]})
  /\ getattr_name (VInst TaskA) = Ok (AStr "a")
  /\ getattr_name (VInst TaskA) <> Ok (AStr "b").
Proof.
  repeat split; try reflexivity. discriminate.
Qed.

(** The empty name is no name to [register]: [register(TaskA, "")]
    registers under the name of the class, and [get_task("")] raises. *)
Lemma register_empty_name_falls_back :
  register (H := contract_host) registry0 (VClass TaskA) (AStr "")
    empty_store
  = (Ok tt, {[ 0 := {[ AStr "a" := VInst TaskA ]} ]})
  /\ get_task registry0 (AStr "") {[ 0 := {[ AStr "a" := VInst TaskA ]} ]}
     = (Err (KeyError (VStr "")), {[ 0 := {[ AStr "a" := VInst TaskA ]} ]}).
Proof. split; reflexivity. Qed.

Lemma register_native_then_get_task_witness :
  exists h',
    register (H := contract_host) registry0 (VClass TaskA) (AStr "a")
      empty_store = (Ok tt, h')
    /\ dict_at h' 0 = <[AStr "a" := VInst TaskA]> (dict_at empty_store 0)
    /\ get_task registry0 (AStr "a") h' = (Ok (VInst TaskA), h')
    /\ getattr_name (VInst TaskA) = getattr_name (VClass TaskA)
    /\ (getattr_name (VInst TaskA) = Ok (AStr "a")
        <-> cls_attr_name TaskA = Some (AStr "a")).
Proof.
  apply (register_native_then_get_task (H := contract_host)
           registry0 TaskA "a" empty_store).
  - discriminate.
  - eexists. reflexivity.
  - reflexivity.
  - reflexivity.
Defined.

Lemma register_function_stores_call_result_witness :
  register (H := forwarding_host) registry0 func_task (AStr "func_task")
    empty_store
  = (Ok tt, {[ 0 := {[ AStr "func_task" := VBool true ]} ]}).
Proof.
  apply (register_function_stores_call_result (H := forwarding_host)
           registry0 func_task "func_task" empty_store).
  - reflexivity.
  - discriminate.
  - reflexivity.
  - reflexivity.
Defined.

(** C3 at [def func_task( **kwargs): return True] registered as
    ["send_email"].  With a [Task] whose instances forward a call to
    [run], the function is called with no arguments at registration and
    its result [True] is what the registry holds: a value with no [type]
    and no [run].  With a [Task] whose instances are not callable,
    [register] raises [TypeError] and holds nothing.  [send_email], that
    needs an argument, cannot be registered in either case. *)
Theorem register_function_handler_lost :
  (register (H := forwarding_host) registry0 func_task (AStr "send_email")
     empty_store
   = (Ok tt, {[ 0 := {[ AStr "send_email" := VBool true ]} ]})
   /\ get_task registry0 (AStr "send_email")
        {[ 0 := {[ AStr "send_email" := VBool true ]} ]}
      = (Ok (VBool true), {[ 0 := {[ AStr "send_email" := VBool true ]} ]})
   /\ getattr_type (VBool true) = Err (AttributeError "type")
   /\ call_run (H := forwarding_host) (VBool true) no_arguments
      = Err (AttributeError "run"))
  /\ register (H := contract_host) registry0 func_task (AStr "send_email")
       empty_store
     = (Err (TypeError "object is not callable"), empty_store)
  /\ register (H := forwarding_host) registry0 send_email (AStr "send_email")
       empty_store
     = (Err (TypeError "send_email() takes exactly 1 argument"), empty_store).
Proof. repeat split. Qed.

(** ** [filter_types] *)

Section FilterFacts.
Context `{!Host}.
Implicit Types (self : TaskRegistry) (v : value) (k type : atom).

(** On items that all have a [type], the generator keeps, in order,
    exactly the items of the given type. *)
Lemma filter_items_typed (items : list (atom * value)) type :
  (forall k v, (k, v) ∈ items -> exists t, getattr_type v = Ok t) ->
  exists kept,
    filter_items items type = Ok kept
    /\ sublist kept items
    /\ forall k v,
        (k, v) ∈ kept <-> (k, v) ∈ items /\ getattr_type v = Ok type.
Proof.
  induction items as [|[k0 v0] rest IH]; intros Htyped.
  - exists []. split; [reflexivity|]. split; [constructor|].
    intros k v. split; [intros Hin|intros [Hin _]]; inversion Hin.
  - destruct IH as (kept & Hkept & Hsub & Hin).
    { intros k v Hkv. apply (Htyped k v). right. exact Hkv. }
    destruct (Htyped k0 v0) as [t Ht]; [left|].
    simpl. rewrite Ht, Hkept. simpl.
    destruct (bool_decide (t = type)) eqn:Htype.
    + apply bool_decide_eq_true_1 in Htype. subst t.
      eexists. split; [reflexivity|]. split; [constructor; exact Hsub|].
      intros k v. rewrite !elem_of_cons, Hin. split.
      * intros [Heq|[Hr Hty]]; [|auto].
        injection Heq as -> ->. auto.
      * intros [[Heq|Hr] Hty]; auto.
    + apply bool_decide_eq_false_1 in Htype.
      exists kept. split; [reflexivity|]. split; [constructor; exact Hsub|].
      intros k v. rewrite elem_of_cons, Hin. split.
      * intros [Hr Hty]. auto.
      * intros [[Heq|Hr] Hty]; [|auto].
        injection Heq as -> ->. congruence.
Qed.

(** The dictionary that [filter_types] returns, entry by entry. *)
Lemma filter_types_lookup self type h :
  (forall k v, dict_at h (data self) !! k = Some v ->
               exists t, getattr_type v = Ok t) ->
  exists l h',
    filter_types self type h = (Ok l, h')
    /\ forall k v,
        dict_at h' l !! k = Some v
        <-> dict_at h (data self) !! k = Some v /\ getattr_type v = Ok type.
Proof.
  intros Htyped.
  destruct (filter_items_typed (map_to_list (dict_at h (data self))) type)
    as (kept & Hkept & Hsub & Hin).
  { intros k v Hkv. apply elem_of_map_to_list in Hkv. eauto. }
  unfold filter_types, bind, dict_items, lift, dict_new.
  rewrite Hkept. do 2 eexists. split; [reflexivity|].
  intros k v. rewrite dict_at_insert.
  rewrite <- elem_of_list_to_map.
  - rewrite elem_of_reverse, Hin, elem_of_map_to_list. reflexivity.
  - rewrite fmap_reverse, reverse_Permutation.
    apply (sublist_NoDup _ ((map_to_list (dict_at h (data self))).*1)).
    + apply NoDup_fst_map_to_list.
    + apply fmap_sublist. exact Hsub.
Qed.

(** C8: on a registry whose stored values all have a [type],
    [filter_types] returns a dictionary that holds exactly the entries
    of the registry whose handler's type is the given one, and the empty
    dictionary when no entry has that type; so every entry of the
    registry is in the result for its own type and in the result for no
    other type.  [get_all_regular] and [get_all_periodic] are the results
    for ["regular"] and ["periodic"]. *)
Theorem filter_types_partition self h :
  (forall k v, dict_at h (data self) !! k = Some v ->
               exists t, getattr_type v = Ok t) ->
  (forall type, exists l h',
      filter_types self type h = (Ok l, h')
      /\ (forall k v,
             dict_at h' l !! k = Some v
             <-> dict_at h (data self) !! k = Some v
                 /\ getattr_type v = Ok type)
      /\ ((forall k v, dict_at h (data self) !! k = Some v ->
                       getattr_type v <> Ok type) ->
          dict_at h' l = ∅))
  /\ (forall k v, dict_at h (data self) !! k = Some v ->
      exists t, forall type l h',
          filter_types self type h = (Ok l, h') ->
          (dict_at h' l !! k = Some v <-> type = t))
  /\ get_all_regular self h = filter_types self (AStr "regular") h
  /\ get_all_periodic self h = filter_types self (AStr "periodic") h.
Proof.
  intros Htyped. split; [|split; [|split; reflexivity]].
  - intros type.
    destruct (filter_types_lookup self type h Htyped) as (l & h' & Hf & Hl).
    exists l, h'. split; [exact Hf|]. split; [exact Hl|].
    intros Hnone. apply map_empty. intros k.
    destruct (dict_at h' l !! k) as [v|] eqn:Hk; [|reflexivity].
    apply Hl in Hk as [Hk Hty]. destruct (Hnone k v Hk Hty).
  - intros k v Hk. destruct (Htyped k v Hk) as [t Ht]. exists t.
    intros type l h' Hf.
    destruct (filter_types_lookup self type h Htyped) as (l0 & h0 & Hf0 & Hl).
    rewrite Hf in Hf0. injection Hf0 as <- <-.
    rewrite Hl, Ht. split.
    + intros [_ Heq]. congruence.
    + intros ->. auto.
Qed.

End FilterFacts.

Lemma filter_types_partition_witness :
  (forall type, exists l h',
      filter_types registry0 type store_ab = (Ok l, h')
      /\ (forall k v,
             dict_at h' l !! k = Some v
             <-> dict_at store_ab 0 !! k = Some v /\ getattr_type v = Ok type)
      /\ ((forall k v, dict_at store_ab 0 !! k = Some v ->
                       getattr_type v <> Ok type) ->
          dict_at h' l = ∅))
  /\ (forall k v, dict_at store_ab 0 !! k = Some v ->
      exists t, forall type l h',
          filter_types registry0 type store_ab = (Ok l, h') ->
          (dict_at h' l !! k = Some v <-> type = t))
  /\ get_all_regular registry0 store_ab
     = filter_types registry0 (AStr "regular") store_ab
  /\ get_all_periodic registry0 store_ab
     = filter_types registry0 (AStr "periodic") store_ab.
Proof.
  apply (filter_types_partition registry0 store_ab).
  intros k v Hkv.
  change (<[AStr "a" := VInst TaskA]>
            ({[ AStr "b" := VInst TaskB ]} : gmap atom value) !! k = Some v)
    in Hkv.
  apply lookup_insert_Some in Hkv as [[_ <-]|[_ Hkv]].
  - exists (AStr "regular"). reflexivity.
  - apply lookup_singleton_Some in Hkv as [_ <-].
    exists (AStr "periodic"). reflexivity.
Defined.

(** The scenario of the two registered tasks: the regular ones are
    [{"a": A}], the periodic ones [{"b": B}], each in a new dictionary
    object. *)
Lemma filter_types_scenario :
  get_all_regular registry0 store_ab
  = (Ok 1, <[1 := {[ AStr "a" := VInst TaskA ]}]> store_ab)
  /\ get_all_periodic registry0 store_ab
     = (Ok 1, <[1 := {[ AStr "b" := VInst TaskB ]}]> store_ab)
  /\ filter_types registry0 (AStr "other") store_ab
     = (Ok 1, <[1 := ∅]> store_ab).
Proof. repeat split; vm_compute; reflexivity. Qed.

(** C8 fails on a registry state that [register] itself makes:
    [register] takes any object with a [run] attribute as a handler, so
    [register(Untyped)] returns and stores an instance that has no
    [type]; on that state [filter_types], and so [get_all_regular] and
    [get_all_periodic], raise the [AttributeError] of [task.type] and
    return no mapping, although the registry holds an entry. *)
Lemma filter_types_after_register_untyped :
  register (H := contract_host) registry0 (VClass Untyped) ANone empty_store
  = (Ok tt, {[ 0 := {[ AStr "u" := VInst Untyped ]} ]})
  /\ dict_at {[ 0 := {[ AStr "u" := VInst Untyped ]} ]} 0 !! AStr "u"
     = Some (VInst Untyped)
  /\ filter_types registry0 (AStr "regular")
       {[ 0 := {[ AStr "u" := VInst Untyped ]} ]}
     = (Err (AttributeError "type"), {[ 0 := {[ AStr "u" := VInst Untyped ]} ]})
  /\ get_all_regular registry0 {[ 0 := {[ AStr "u" := VInst Untyped ]} ]}
     = (Err (AttributeError "type"), {[ 0 := {[ AStr "u" := VInst Untyped ]} ]})
  /\ get_all_periodic registry0 {[ 0 := {[ AStr "u" := VInst Untyped ]} ]}
     = (Err (AttributeError "type"), {[ 0 := {[ AStr "u" := VInst Untyped ]} ]}).
Proof. repeat split. Qed.

(** A stored value without a [type] makes [filter_types] raise. *)
Lemma filter_types_untyped_value :
  filter_types registry0 (AStr "regular")
    {[ 0 := {[ AStr "send_email" := VBool true ]} ]}
  = (Err (AttributeError "type"),
     {[ 0 := {[ AStr "send_email" := VBool true ]} ]}).
Proof. reflexivity. Qed.

(** ** [get_all] and the identity of the dictionary *)

Section AliasFacts.
Context `{!Host}.
Implicit Types (self : TaskRegistry) (task v : value) (name k : atom).

(** A [register] that returns has stored a value under the resolved
    name, in the dictionary of the registry. *)
Lemma register_returns self task name k h h1 :
  resolved_name task name = Ok k ->
  register self task name h = (Ok tt, h1) ->
  exists v, h1 = <[data self := <[k := v]> (dict_at h (data self))]> h.
Proof.
  intros Hname. unfold register, bind, lift, ret, raise, dict_setitem.
  rewrite Hname, dict_contains_key.
  destruct (bool_decide _); [discriminate|].
  destruct (hasattr_run task).
  - destruct (call task no_arguments) as [v|]; [|discriminate].
    intros [= <-]. eauto.
  - destruct k as [|s]; [discriminate|].
    destruct (call (VClass _) no_arguments) as [taskcls|]; [|discriminate].
    destruct (call taskcls no_arguments) as [v|]; [|discriminate].
    intros [= <-]. eauto.
Qed.

(** C10: the reference that [get_all] returns is [self.data] itself, and
    the call changes nothing.  After any later calls of [register] and
    [unregister], reading through that reference is reading the
    registry: a name registered since is found through it, a name
    unregistered since is gone from it.  Writing through the reference
    writes the registry: [get_task] returns what was stored through it
    and misses what was deleted through it. *)
Theorem get_all_is_live self h (d : loc) h0 :
  get_all self h = (Ok d, h0) ->
  d = data self /\ h0 = h
  /\ (forall calls name,
         dict_getitem d (value_of name) (mutations self calls h0)
         = get_task self name (mutations self calls h0))
  /\ (forall task name k h1,
         resolved_name task name = Ok k ->
         register self task name h0 = (Ok tt, h1) ->
         exists v, dict_getitem d (value_of k) h1 = (Ok v, h1))
  /\ (forall v k h1,
         v = value_of k \/ (hasattr_run v = true /\ getattr_name v = Ok k) ->
         unregister self v h0 = (Ok tt, h1) ->
         dict_getitem d (value_of k) h1 = (Err (KeyError (value_of k)), h1))
  /\ (forall k v h1,
         dict_setitem d k v h0 = (Ok tt, h1) ->
         get_task self k h1 = (Ok v, h1))
  /\ (forall k h1,
         dict_delitem d (value_of k) h0 = (Ok tt, h1) ->
         get_task self k h1 = (Err (KeyError (value_of k)), h1)).
Proof.
  intros [= <- <-]. repeat split.
  - intros task name k h1 Hname Hreg.
    destruct (register_returns _ _ _ _ _ _ Hname Hreg) as [v ->].
    exists v. apply get_task_present.
    rewrite dict_at_insert. apply lookup_insert_eq.
  - intros v k h1 Hv Hun. apply get_task_absent.
    rewrite (unregister_key _ _ _ _ Hv) in Hun.
    destruct (dict_at h (data self) !! k); [|discriminate].
    injection Hun as <-. rewrite dict_at_insert. apply lookup_delete_eq.
  - intros k v h1 [= <-]. apply get_task_present.
    rewrite dict_at_insert. apply lookup_insert_eq.
  - intros k h1. unfold dict_delitem. rewrite key_of_value_of.
    destruct (dict_at h (data self) !! k); [|discriminate].
    intros [= <-]. apply get_task_absent.
    rewrite dict_at_insert. apply lookup_delete_eq.
Qed.

End AliasFacts.

Lemma get_all_is_live_witness :
  0 = data registry0 /\ store_ab = store_ab
  /\ (forall calls name,
         dict_getitem 0 (value_of name)
           (mutations (H := forwarding_host) registry0 calls store_ab)
         = get_task registry0 name
             (mutations (H := forwarding_host) registry0 calls store_ab))
  /\ (forall task name k h1,
         resolved_name task name = Ok k ->
         register (H := forwarding_host) registry0 task name store_ab
         = (Ok tt, h1) ->
         exists v, dict_getitem 0 (value_of k) h1 = (Ok v, h1))
  /\ (forall v k h1,
         v = value_of k \/ (hasattr_run v = true /\ getattr_name v = Ok k) ->
         unregister (H := forwarding_host) registry0 v store_ab = (Ok tt, h1) ->
         dict_getitem 0 (value_of k) h1 = (Err (KeyError (value_of k)), h1))
  /\ (forall k v h1,
         dict_setitem 0 k v store_ab = (Ok tt, h1) ->
         get_task registry0 k h1 = (Ok v, h1))
  /\ (forall k h1,
         dict_delitem 0 (value_of k) store_ab = (Ok tt, h1) ->
         get_task registry0 k h1 = (Err (KeyError (value_of k)), h1)).
Proof.
  apply (get_all_is_live (H := forwarding_host) registry0 store_ab 0 store_ab).
  reflexivity.
Defined.

(** Through a reference got before them, the calls
    [register(TaskA, "c")] and [unregister("b")] are seen; the
    dictionary that [filter_types] returned before them is another
    object and stays as it was. *)
Lemma get_all_sees_later_calls :
  let h1 := snd (get_all_periodic registry0 store_ab) in
  let h2 :=
    mutations (H := forwarding_host) registry0
      [Register (VClass TaskA) (AStr "c"); Unregister (VStr "b")] h1 in
  get_all registry0 h1 = (Ok 0, h1)
  /\ get_all_periodic registry0 store_ab = (Ok 1, h1)
  /\ dict_at h1 0 = <[AStr "a" := VInst TaskA]> {[ AStr "b" := VInst TaskB ]}
  /\ dict_at h2 0 = <[AStr "a" := VInst TaskA]> {[ AStr "c" := VInst TaskA ]}
  /\ dict_at h2 1 = {[ AStr "b" := VInst TaskB ]}.
Proof. repeat split; vm_compute; reflexivity. Qed.

(** ** Other inputs of [unregister] *)

Section UnregisterOther.
Context `{!Host}.

(** An object with a [run] attribute and no [name] attribute: the lookup
    of [name.name] raises, and nothing changes. *)
Lemma unregister_task_without_name (self : TaskRegistry) (v : value) h :
  hasattr_run v = true ->
  getattr_name v = Err (AttributeError "name") ->
  unregister self v h = (Err (AttributeError "name"), h).
Proof.
  intros Hrun Hname. unfold unregister. rewrite Hrun.
  unfold bind, lift. rewrite Hname. reflexivity.
Qed.

(** An object that is neither a name nor a handler is no key of the
    dictionary. *)
Lemma unregister_other_object (self : TaskRegistry) (v : value) h :
  hasattr_run v = false ->
  key_of v = None ->
  unregister self v h
  = (Err (NotRegistered
            ("Task with name " ++ str v ++ " is not registered.")), h).
Proof.
  intros Hrun Hkey. unfold unregister. rewrite Hrun.
  unfold bind, ret, dict_contains. rewrite Hkey. reflexivity.
Qed.

End UnregisterOther.

(** ** Scenarios *)

(** The global registry starts with an empty dictionary. *)
Lemma tasks_is_empty : tasks = (Ok registry0, empty_store).
Proof. reflexivity. Qed.

(** Two handler classes registered under their own names, then the three
    views of the registry. *)
Lemma scenario_two_tasks :
  mutations (H := contract_host) registry0
    [Register (VClass TaskA) ANone; Register (VClass TaskB) ANone] empty_store
  = store_ab
  /\ get_all registry0 store_ab = (Ok 0, store_ab)
  /\ dict_at store_ab 0
     = <[AStr "a" := VInst TaskA]> {[ AStr "b" := VInst TaskB ]}
  /\ get_task registry0 (AStr "a") store_ab = (Ok (VInst TaskA), store_ab)
  /\ getattr_name (VInst TaskA) = Ok (AStr "a").
Proof. repeat split; vm_compute; reflexivity. Qed.

(** Registering twice: the second call raises and the store is the one
    the first call left. *)
Lemma scenario_register_twice :
  register (H := contract_host) registry0 (VClass TaskA) ANone empty_store
  = (Ok tt, {[ 0 := {[ AStr "a" := VInst TaskA ]} ]})
  /\ register (H := contract_host) registry0 (VClass TaskA) ANone
       {[ 0 := {[ AStr "a" := VInst TaskA ]} ]}
     = (Err (AlreadyRegistered "Task with name a is already registered."),
        {[ 0 := {[ AStr "a" := VInst TaskA ]} ]}).
Proof. split; reflexivity. Qed.

(** A function that carries its name, registered without a name: the
    name is taken from the function, and with a forwarding [Task] the
    registry holds the result of the function. *)
Lemma scenario_named_function :
  register (H := forwarding_host) registry0 named_func_task ANone empty_store
  = (Ok tt, {[ 0 := {[ AStr "func_task" := VBool true ]} ]})
  /\ register (H := forwarding_host) registry0 func_task ANone empty_store
     = (Err (AttributeError "name"), empty_store).
Proof. split; reflexivity. Qed.

(** * Further properties *)

(** ** The characters of a derived class name *)

Section ClsnameMore.

Lemma append_cons (c : ascii) (s1 s2 : string) :
  String c s1 ++ s2 = String c (s1 ++ s2).
Proof. reflexivity. Qed.

Lemma append_nil_r (s : string) : s ++ "" = s.
Proof.
  induction s as [|c s IH]; [reflexivity|].
  rewrite append_cons, IH. reflexivity.
Qed.

Lemma append_assoc (s1 s2 s3 : string) : (s1 ++ s2) ++ s3 = s1 ++ (s2 ++ s3).
Proof.
  induction s1 as [|c s1 IH]; [reflexivity|].
  rewrite !append_cons, IH. reflexivity.
Qed.

Lemma join_app (l1 l2 : list string) :
  Str.join (l1 ++ l2)%list = Str.join l1 ++ Str.join l2.
Proof.
  induction l1 as [|seg l1 IH]; simpl; [reflexivity|].
  rewrite IH, append_assoc. reflexivity.
Qed.

Lemma all_chars_app p (s1 s2 : string) :
  all_chars p (s1 ++ s2) = all_chars p s1 && all_chars p s2.
Proof.
  induction s1 as [|c s1 IH]; [reflexivity|].
  rewrite append_cons. simpl. rewrite IH, andb_assoc. reflexivity.
Qed.

(** Changing the case of a letter or digit gives a letter or digit. *)
Lemma isalnum_case (c : ascii) :
  Str.isalnum c = true ->
  Str.isalnum (Str.toupper c) = true /\ Str.isalnum (Str.tolower c) = true.
Proof.
  destruct c as [[] [] [] [] [] [] [] []]; vm_compute; intros Hc;
    first [discriminate Hc | split; reflexivity].
Qed.

Lemma all_chars_lower (s : string) :
  all_chars Str.isalnum s = true -> all_chars Str.isalnum (Str.lower s) = true.
Proof.
  induction s as [|c s IH]; simpl; [reflexivity|].
  intros [Hc Hs]%andb_true_iff.
  rewrite (proj2 (isalnum_case c Hc)), IH; auto.
Qed.

Lemma all_chars_capitalize (s : string) :
  all_chars Str.isalnum s = true ->
  all_chars Str.isalnum (Str.capitalize s) = true.
Proof.
  destruct s as [|c s]; simpl; [reflexivity|].
  intros [Hc Hs]%andb_true_iff.
  rewrite (proj1 (isalnum_case c Hc)), all_chars_lower; auto.
Qed.

Lemma split_nonempty (name : string) : RE_ILLEGAL_CLASS_CHARS_split name <> [].
Proof.
  destruct name as [|c rest]; simpl; [discriminate|].
  destruct (RE_ILLEGAL_CLASS_CHARS c); [discriminate|].
  destruct (RE_ILLEGAL_CLASS_CHARS_split rest); discriminate.
Qed.

(** No segment of the split holds an illegal character. *)
Lemma split_segments_legal (name : string) :
  Forall (fun seg => all_chars Str.isalnum seg = true)
         (RE_ILLEGAL_CLASS_CHARS_split name).
Proof.
  induction name as [|c rest IH]; simpl.
  - repeat constructor.
  - unfold RE_ILLEGAL_CLASS_CHARS.
    destruct (Str.isalnum c) eqn:Hc; simpl.
    + destruct IH as [|seg segs Hseg Hsegs]; simpl; constructor;
        simpl; try rewrite Hc; auto.
    + constructor; [reflexivity | exact IH].
Qed.

(** X1: a derived class name is made of ASCII letters and digits only:
    every character that [RE_ILLEGAL_CLASS_CHARS] matches, the
    underscore included, is gone from it. *)
Theorem name_to_clsname_alnum (name : string) :
  all_chars Str.isalnum (name_to_clsname name) = true.
Proof.
  unfold name_to_clsname.
  induction (split_segments_legal name) as [|seg segs Hseg _ IH]; simpl.
  - reflexivity.
  - rewrite all_chars_app, IH, all_chars_capitalize; auto.
Qed.

Lemma split_app (a b : string) (c : ascii) :
  RE_ILLEGAL_CLASS_CHARS c = true ->
  RE_ILLEGAL_CLASS_CHARS_split (a ++ String c b)
  = (RE_ILLEGAL_CLASS_CHARS_split a ++ RE_ILLEGAL_CLASS_CHARS_split b)%list.
Proof.
  intros Hc. induction a as [|x a IH].
  - simpl. rewrite Hc. reflexivity.
  - rewrite append_cons. simpl. rewrite IH. destruct (RE_ILLEGAL_CLASS_CHARS x); [reflexivity|].
    pose proof (split_nonempty a) as Hne.
    destruct (RE_ILLEGAL_CLASS_CHARS_split a); [congruence | reflexivity].
Qed.

(** X2: an illegal character cuts the name in two parts that are
    converted apart: the class name of [a + c + b] is the class name of
    [a] followed by the class name of [b], whatever illegal character
    [c] is. *)
Theorem name_to_clsname_app (a b : string) (c : ascii) :
  RE_ILLEGAL_CLASS_CHARS c = true ->
  name_to_clsname (a ++ String c b) = name_to_clsname a ++ name_to_clsname b.
Proof.
  intros Hc. unfold name_to_clsname.
  rewrite (split_app a b c Hc), map_app, join_app. reflexivity.
Qed.

Lemma split_legal (name : string) :
  all_chars Str.isalnum name = true ->
  RE_ILLEGAL_CLASS_CHARS_split name = [name].
Proof.
  induction name as [|c rest IH]; simpl; [reflexivity|].
  intros [Hc Hrest]%andb_true_iff.
  unfold RE_ILLEGAL_CLASS_CHARS. rewrite Hc, (IH Hrest). reflexivity.
Qed.

(** X3: a name of letters and digits only is one segment, and its class
    name is [name.capitalize()]: the first character in upper case and
    every other letter in lower case, so capitals inside the name are
    lost. *)
Theorem name_to_clsname_of_alnum (name : string) :
  all_chars Str.isalnum name = true ->
  name_to_clsname name = Str.capitalize name.
Proof.
  intros Hname. unfold name_to_clsname. rewrite (split_legal name Hname).
  simpl. apply append_nil_r.
Qed.

End ClsnameMore.

Lemma name_to_clsname_app_witness :
  name_to_clsname ("celery" ++ String "." "ping")
  = name_to_clsname "celery" ++ name_to_clsname "ping".
Proof. apply (name_to_clsname_app "celery" "ping" "."). reflexivity. Defined.

Lemma name_to_clsname_of_alnum_witness :
  name_to_clsname "sendEmail2" = Str.capitalize "sendEmail2".
Proof. apply (name_to_clsname_of_alnum "sendEmail2"). reflexivity. Defined.

Example name_to_clsname_camel : name_to_clsname "sendEmail2" = "Sendemail2".
Proof. reflexivity. Qed.

(** ** The effect of [register] and [unregister] on the store *)

Section StoreFacts.
Context `{!Host}.
Implicit Types (self : TaskRegistry) (task v : value) (name k : atom).

(** [register] either raises and leaves the store as it is, or stores
    one value under the resolved name, which was not a key before. *)
Lemma register_cases self task name h :
  (exists e, register self task name h = (Err e, h))
  \/ (exists k v,
        resolved_name task name = Ok k
        /\ dict_at h (data self) !! k = None
        /\ register self task name h
           = (Ok tt, <[data self := <[k := v]> (dict_at h (data self))]> h)).
Proof.
  unfold register, bind, lift, ret, raise, dict_setitem.
  destruct (resolved_name task name) as [k|e] eqn:Hname; [|eauto].
  rewrite dict_contains_key.
  destruct (dict_at h (data self) !! k) as [x|] eqn:Hk.
  { rewrite bool_decide_eq_true_2 by eauto. eauto. }
  rewrite bool_decide_eq_false_2 by apply is_Some_None.
  destruct (hasattr_run task).
  - destruct (call task no_arguments) as [v|e]; [|eauto].
    right. exists k, v. auto.
  - destruct k as [|s]; [eauto|].
    destruct (call (VClass _) no_arguments) as [taskcls|e]; [|eauto].
    destruct (call taskcls no_arguments) as [v|e]; [|eauto].
    right. exists (AStr s), v. auto.
Qed.

(** [unregister] either raises [NotRegistered] or the [AttributeError]
    of [name.name] and leaves the store as it is, or deletes the
    resolved key, which was present. *)
Lemma unregister_cases self v h :
  (exists e,
      unregister self v h = (Err e, h)
      /\ ((exists msg, e = NotRegistered msg) \/ e = AttributeError "name"))
  \/ (exists k x,
        (v = value_of k \/ (hasattr_run v = true /\ getattr_name v = Ok k))
        /\ dict_at h (data self) !! k = Some x
        /\ unregister self v h
           = (Ok tt, <[data self := delete k (dict_at h (data self))]> h)).
Proof.
  destruct (hasattr_run v) eqn:Hrun.
  - destruct (getattr_name v) as [k|e] eqn:Hname.
    + rewrite (unregister_key self v k h) by auto.
      destruct (dict_at h (data self) !! k) as [x|] eqn:Hk.
      * right. exists k, x. rewrite Hk. auto.
      * left. eexists. split; [reflexivity|]. left. eauto.
    + left. exists e. apply getattr_name_error in Hname as Heq. subst e.
      split; [|auto]. unfold unregister. rewrite Hrun.
      unfold bind, lift. rewrite Hname. reflexivity.
  - destruct (key_of v) as [k|] eqn:Hkey.
    + assert (v = value_of k) as ->.
      { destruct v; try discriminate; injection Hkey as <-; reflexivity. }
      rewrite (unregister_key self (value_of k) k h) by auto.
      destruct (dict_at h (data self) !! k) as [x|] eqn:Hk.
      * right. exists k, x. rewrite Hk. auto.
      * left. eexists. split; [reflexivity|]. left. eauto.
    + left. eexists. split; [|left; eauto].
      unfold unregister. rewrite Hrun.
      unfold bind, ret, dict_contains. rewrite Hkey. reflexivity.
Qed.

(** The calls of a sequence touch no other dictionary of the store than
    the one of the registry. *)
Lemma mutations_frame self (calls : list mutation) h (d' : loc) :
  d' <> data self -> mutations self calls h !! d' = h !! d'.
Proof.
  intros Hd. revert h. induction calls as [|c calls IH]; intros h; simpl.
  - reflexivity.
  - rewrite IH. destruct c as [task name|v]; simpl.
    + destruct (register_cases self task name h)
        as [[e ->]|(k & v & _ & _ & ->)]; simpl; [reflexivity|].
      apply lookup_insert_ne. auto.
    + destruct (unregister_cases self v h)
        as [(e & -> & _)|(k & x & _ & _ & ->)]; simpl; [reflexivity|].
      apply lookup_insert_ne. auto.
Qed.

Lemma dict_at_frame (h h1 : heap) (d : loc) :
  h1 !! d = h !! d -> dict_at h1 d = dict_at h d.
Proof. unfold dict_at. intros ->. reflexivity. Qed.

(** X4: [TaskRegistry()] makes a dictionary object that no registry made
    before shares: its reference is new, it starts empty, and no other
    dictionary of the store changes.  Of two registries made one after
    the other, neither sees what [register] and [unregister] do to the
    other. *)
Theorem TaskRegistry_init_fresh (h : heap) :
  exists r1 h1 r2 h2,
    TaskRegistry_init h = (Ok r1, h1)
    /\ TaskRegistry_init h1 = (Ok r2, h2)
    /\ h !! data r1 = None
    /\ dict_at h1 (data r1) = ∅
    /\ (forall d', d' <> data r1 -> h1 !! d' = h !! d')
    /\ data r1 <> data r2
    /\ dict_at h2 (data r2) = ∅
    /\ (forall calls,
           dict_at (mutations r1 calls h2) (data r2) = ∅)
    /\ (forall calls,
           dict_at (mutations r2 calls h2) (data r1) = ∅).
Proof.
  unfold TaskRegistry_init, bind, ret, dict_new. simpl.
  set (l1 := fresh (dom h)).
  set (h1 := <[l1 := (∅ : gmap atom value)]> h).
  set (l2 := fresh (dom h1)).
  assert (h !! l1 = None) as Hl1.
  { apply not_elem_of_dom. apply is_fresh. }
  assert (l1 <> l2) as Hne.
  { intros Heq. pose proof (is_fresh (dom h1)) as Hfresh.
    fold l2 in Hfresh. rewrite <- Heq in Hfresh. apply Hfresh.
    apply elem_of_dom. unfold h1. rewrite lookup_insert_eq. eauto. }
  set (h2 := <[l2 := (∅ : gmap atom value)]> h1).
  exists {| data := l1 |}, h1, {| data := l2 |}, h2.
  split; [reflexivity|]. split; [reflexivity|]. simpl.
  split; [exact Hl1|]. split; [apply dict_at_insert|].
  split; [intros d' Hd; apply lookup_insert_ne; auto|].
  split; [exact Hne|]. split; [apply dict_at_insert|]. split.
  - intros calls.
    rewrite (dict_at_frame h2 (mutations {| data := l1 |} calls h2) l2).
    + apply dict_at_insert.
    + apply mutations_frame. simpl. auto.
  - intros calls.
    rewrite (dict_at_frame h2 (mutations {| data := l2 |} calls h2) l1).
    + unfold dict_at, h2. rewrite lookup_insert_ne by auto.
      unfold h1. rewrite lookup_insert_eq. reflexivity.
    + apply mutations_frame. simpl. auto.
Qed.

(** X5: a [register] that returns has added exactly one entry: the
    resolved name was no key before and is one after, every other name
    maps to what it mapped to, the dictionary has one entry more, and no
    other dictionary of the store has changed. *)
Theorem register_adds_one_entry self task name k h h1 :
  resolved_name task name = Ok k ->
  register self task name h = (Ok tt, h1) ->
  dict_at h (data self) !! k = None
  /\ is_Some (dict_at h1 (data self) !! k)
  /\ (forall k', k' <> k ->
        dict_at h1 (data self) !! k' = dict_at h (data self) !! k')
  /\ size (dict_at h1 (data self)) = S (size (dict_at h (data self)))
  /\ (forall d', d' <> data self -> h1 !! d' = h !! d').
Proof.
  intros Hname Hreg.
  destruct (register_cases self task name h)
    as [[e He]|(k0 & v & Hname0 & Hk & Hok)]; [congruence|].
  rewrite Hname in Hname0. injection Hname0 as <-.
  rewrite Hreg in Hok. injection Hok as ->.
  rewrite dict_at_insert. repeat split.
  - exact Hk.
  - rewrite lookup_insert_eq. eauto.
  - intros k' Hk'. apply lookup_insert_ne. auto.
  - apply map_size_insert_None. exact Hk.
  - intros d' Hd. apply lookup_insert_ne. auto.
Qed.

(** X6: whatever [register] raises, be it [AlreadyRegistered], the
    [AttributeError] of a missing name or an exception of the code it
    calls, it raises it before it stores: the store after the call is
    the store before it. *)
Theorem register_failure_keeps_store self task name h e h1 :
  register self task name h = (Err e, h1) -> h1 = h.
Proof.
  intros Hreg.
  destruct (register_cases self task name h)
    as [[e0 He]|(k & v & _ & _ & Hok)]; congruence.
Qed.

(** X7: a call without a name, or with the empty name, is the call with
    the [name] attribute of the task as the name. *)
Theorem register_default_name self task name k h :
  truthy name = false ->
  getattr_name task = Ok k ->
  register self task name h = register self task k h.
Proof.
  intros Hname Hattr.
  assert (resolved_name task name = resolved_name task k) as Hres.
  { unfold resolved_name. rewrite Hname. simpl.
    destruct (truthy k); simpl; [exact Hattr | reflexivity]. }
  unfold register. rewrite Hres. reflexivity.
Qed.

(** X8: after a [register] that returned, the same call raises
    [AlreadyRegistered] and changes nothing. *)
Theorem register_twice self task name h h1 :
  register self task name h = (Ok tt, h1) ->
  exists msg, register self task name h1 = (Err (AlreadyRegistered msg), h1).
Proof.
  intros Hreg.
  destruct (register_cases self task name h)
    as [[e He]|(k & v & Hname & _ & Hok)]; [congruence|].
  rewrite Hreg in Hok. injection Hok as ->.
  eexists. unfold register, bind, lift, raise. rewrite Hname.
  rewrite (dict_contains_present _ k v).
  - reflexivity.
  - rewrite dict_at_insert. apply lookup_insert_eq.
Qed.

(** X9: [unregister] undoes [register]: after a [register] that
    returned, unregistering the resolved name succeeds and the
    dictionary of the registry is again the one of before the
    [register]; no other dictionary of the store has changed. *)
Theorem register_then_unregister self task name k h h1 :
  resolved_name task name = Ok k ->
  register self task name h = (Ok tt, h1) ->
  exists h2,
    unregister self (value_of k) h1 = (Ok tt, h2)
    /\ dict_at h2 (data self) = dict_at h (data self)
    /\ (forall d', d' <> data self -> h2 !! d' = h !! d').
Proof.
  intros Hname Hreg.
  destruct (register_cases self task name h)
    as [[e He]|(k0 & v & Hname0 & Hk & Hok)]; [congruence|].
  rewrite Hname in Hname0. injection Hname0 as <-.
  rewrite Hreg in Hok. injection Hok as ->.
  rewrite (unregister_key self (value_of k) k) by auto.
  rewrite dict_at_insert, lookup_insert_eq.
  eexists. split; [reflexivity|]. split.
  - rewrite dict_at_insert. apply delete_insert_id. exact Hk.
  - intros d' Hd. rewrite !lookup_insert_ne by auto. reflexivity.
Qed.

(** X10: [unregister] raises nothing but [NotRegistered] and the
    [AttributeError] of a handler without a name, never the [KeyError]
    of its [del], and when it raises the store is unchanged. *)
Theorem unregister_failure self v h e h1 :
  unregister self v h = (Err e, h1) ->
  h1 = h /\ ((exists msg, e = NotRegistered msg) \/ e = AttributeError "name").
Proof.
  intros Hun.
  destruct (unregister_cases self v h)
    as [(e0 & He & Hkind)|(k & x & _ & _ & Hok)]; [|congruence].
  rewrite Hun in He. injection He as <- <-. auto.
Qed.

(** X11: unregistering by handler is unregistering by its name: for a
    class with a [run] attribute, and for an instance of it, the call
    is the call on the value of the [name] attribute. *)
Theorem unregister_task_as_name self (c : class) k h :
  is_Some (cls_attr_run c) ->
  cls_attr_name c = Some k ->
  unregister self (VClass c) h = unregister self (value_of k) h
  /\ unregister self (VInst c) h = unregister self (value_of k) h.
Proof.
  intros Hrun Hname.
  assert (hasattr_run (VClass c) = true /\ hasattr_run (VInst c) = true)
    as [Hc Hi] by (split; apply bool_decide_eq_true_2; exact Hrun).
  assert (getattr_name (VClass c) = Ok k /\ getattr_name (VInst c) = Ok k)
    as [Hnc Hni] by (simpl; rewrite Hname; auto).
  rewrite (unregister_key self (VClass c) k h) by auto.
  rewrite (unregister_key self (VInst c) k h) by auto.
  rewrite (unregister_key self (value_of k) k h) by auto.
  auto.
Qed.

(** X12: after an [unregister] that returned, the same call raises
    [NotRegistered] and changes nothing. *)
Theorem unregister_twice self v h h1 :
  unregister self v h = (Ok tt, h1) ->
  exists msg, unregister self v h1 = (Err (NotRegistered msg), h1).
Proof.
  intros Hun.
  destruct (unregister_cases self v h)
    as [(e & He & _)|(k & x & Hv & _ & Hok)]; [congruence|].
  rewrite Hun in Hok. injection Hok as ->.
  rewrite (unregister_key self v k _ Hv).
  rewrite dict_at_insert, lookup_delete_eq. eauto.
Qed.

(** X15: [register] takes the [name] attribute as it is: when it is
    [None] or the empty string, a handler class whose instantiation
    succeeds is registered under that key, without an error. *)
Theorem register_accepts_falsy_name self (c : class) name k h :
  truthy name = false ->
  truthy k = false ->
  cls_attr_name c = Some k ->
  is_Some (cls_attr_run c) ->
  call (VClass c) no_arguments = Ok (VInst c) ->
  dict_at h (data self) !! k = None ->
  register self (VClass c) name h
  = (Ok tt, <[data self := <[k := VInst c]> (dict_at h (data self))]> h).
Proof.
  intros Hname Hk Hattr Hrun Hnew Habsent.
  rewrite (register_native self (VClass c) name k h).
  - rewrite Hnew. reflexivity.
  - apply bool_decide_eq_true_2. exact Hrun.
  - unfold resolved_name. rewrite Hname. simpl. rewrite Hattr. reflexivity.
  - exact Habsent.
Qed.

End StoreFacts.

Lemma register_adds_one_entry_witness :
  dict_at store_ab 0 !! AStr "c" = None
  /\ is_Some (dict_at (<[0 := <[AStr "c" := VInst TaskA]> (dict_at store_ab 0)]>
                         store_ab) 0 !! AStr "c")
  /\ (forall k', k' <> AStr "c" ->
        dict_at (<[0 := <[AStr "c" := VInst TaskA]> (dict_at store_ab 0)]>
                   store_ab) 0 !! k'
        = dict_at store_ab 0 !! k')
  /\ size (dict_at (<[0 := <[AStr "c" := VInst TaskA]> (dict_at store_ab 0)]>
                      store_ab) 0)
     = S (size (dict_at store_ab 0))
  /\ (forall d', d' <> 0 ->
        (<[0 := <[AStr "c" := VInst TaskA]> (dict_at store_ab 0)]> store_ab)
          !! d' = store_ab !! d').
Proof.
  apply (register_adds_one_entry (H := contract_host) registry0
           (VClass TaskA) (AStr "c") (AStr "c") store_ab); reflexivity.
Defined.

Lemma register_failure_keeps_store_witness : store_ab = store_ab.
Proof.
  apply (register_failure_keeps_store (H := contract_host) registry0
           (VClass TaskA) ANone store_ab
           (AlreadyRegistered "Task with name a is already registered.")
           store_ab).
  reflexivity.
Defined.

Lemma register_default_name_witness :
  register (H := contract_host) registry0 (VClass TaskA) (AStr "") empty_store
  = register (H := contract_host) registry0 (VClass TaskA) (AStr "a")
      empty_store.
Proof.
  apply (register_default_name (H := contract_host) registry0
           (VClass TaskA) (AStr "") (AStr "a") empty_store); reflexivity.
Defined.

Lemma register_twice_witness :
  exists msg,
    register (H := contract_host) registry0 (VClass TaskA) ANone
      {[ 0 := {[ AStr "a" := VInst TaskA ]} ]}
    = (Err (AlreadyRegistered msg), {[ 0 := {[ AStr "a" := VInst TaskA ]} ]}).
Proof.
  apply (register_twice (H := contract_host) registry0 (VClass TaskA) ANone
           empty_store).
  reflexivity.
Defined.

Lemma register_then_unregister_witness :
  exists h2,
    unregister (H := contract_host) registry0 (VStr "a")
      {[ 0 := {[ AStr "a" := VInst TaskA ]} ]} = (Ok tt, h2)
    /\ dict_at h2 0 = dict_at empty_store 0
    /\ (forall d', d' <> 0 -> h2 !! d' = empty_store !! d').
Proof.
  apply (register_then_unregister (H := contract_host) registry0
           (VClass TaskA) ANone (AStr "a") empty_store); reflexivity.
Defined.

Lemma unregister_failure_witness :
  store_ab = store_ab
  /\ ((exists msg,
         NotRegistered "Task with name c is not registered."
         = NotRegistered msg)
      \/ NotRegistered "Task with name c is not registered."
         = AttributeError "name").
Proof.
  apply (unregister_failure (H := contract_host) registry0 (VStr "c")
           store_ab).
  reflexivity.
Defined.

Lemma unregister_task_as_name_witness :
  unregister (H := contract_host) registry0 (VClass TaskA) store_ab
  = unregister (H := contract_host) registry0 (VStr "a") store_ab
  /\ unregister (H := contract_host) registry0 (VInst TaskA) store_ab
     = unregister (H := contract_host) registry0 (VStr "a") store_ab.
Proof.
  apply (unregister_task_as_name (H := contract_host) registry0 TaskA
           (AStr "a") store_ab); [eexists|]; reflexivity.
Defined.

Lemma unregister_twice_witness :
  exists msg,
    unregister (H := contract_host) registry0 (VClass TaskB)
      {[ 0 := {[ AStr "a" := VInst TaskA ]} ]}
    = (Err (NotRegistered msg), {[ 0 := {[ AStr "a" := VInst TaskA ]} ]}).
Proof.
  apply (unregister_twice (H := contract_host) registry0 (VClass TaskB)
           store_ab).
  reflexivity.
Defined.

(** [class Unnamed: name = None; type = "regular"; run = method 0] *)
Lemma register_accepts_falsy_name_witness :
  register (H := contract_host) registry0
    (VClass (Class "Unnamed" false (Some ANone) (Some (AStr "regular"))
               (Some (Method 0))))
    ANone empty_store
  = (Ok tt,
     <[0 := <[ANone := VInst (Class "Unnamed" false (Some ANone)
                                (Some (AStr "regular")) (Some (Method 0)))]>
              (dict_at empty_store 0)]> empty_store).
Proof.
  apply (register_accepts_falsy_name (H := contract_host) registry0
           (Class "Unnamed" false (Some ANone) (Some (AStr "regular"))
              (Some (Method 0)))
           ANone ANone empty_store); try reflexivity.
  eexists. reflexivity.
Defined.

(** ** The dictionary that [filter_types] returns *)

Section FilterMore.
Context `{!Host}.
Implicit Types (self : TaskRegistry) (v : value) (k type : atom).

(** The generator raises as soon as an item has no [type]. *)
Lemma filter_items_untyped (items : list (atom * value)) type k v :
  (k, v) ∈ items ->
  getattr_type v = Err (AttributeError "type") ->
  filter_items items type = Err (AttributeError "type").
Proof.
  intros Hin Hv. induction items as [|[k0 v0] rest IH]; [inversion Hin|].
  simpl. apply elem_of_cons in Hin as [Heq|Hin].
  - injection Heq as <- <-. rewrite Hv. reflexivity.
  - destruct (getattr_type v0) as [t|e] eqn:Hv0; simpl.
    + rewrite (IH Hin). reflexivity.
    + destruct v0 as [| | | |[? ? ? [?|] ?]|[? ? ? [?|] ?]];
        simpl in Hv0; congruence.
Qed.

(** X13: [filter_types] returns a dictionary object of its own: on a
    registry whose dictionary is in the store, the reference it returns
    is new and is not [self.data], the dictionary of the registry and
    every other dictionary are as before, and no later call of
    [register] or [unregister] changes the returned dictionary. *)
Theorem filter_types_returns_new_dict self type h (l : loc) h1 :
  is_Some (h !! data self) ->
  filter_types self type h = (Ok l, h1) ->
  h !! l = None
  /\ l <> data self
  /\ dict_at h1 (data self) = dict_at h (data self)
  /\ (forall d', d' <> l -> h1 !! d' = h !! d')
  /\ (forall calls, dict_at (mutations self calls h1) l = dict_at h1 l).
Proof.
  intros Halloc. unfold filter_types, bind, dict_items, lift, dict_new.
  destruct (filter_items _ type) as [kept|e]; [|discriminate].
  intros [= <- <-].
  assert (h !! fresh (dom h) = None) as Hfresh.
  { apply not_elem_of_dom. apply is_fresh. }
  assert (fresh (dom h) <> data self) as Hne.
  { intros Heq. rewrite Heq in Hfresh. rewrite Hfresh in Halloc.
    destruct Halloc as [? ?]. discriminate. }
  split; [exact Hfresh|]. split; [exact Hne|]. split; [|split].
  - apply dict_at_frame. apply lookup_insert_ne. exact Hne.
  - intros d' Hd. apply lookup_insert_ne. auto.
  - intros calls. apply dict_at_frame. apply mutations_frame. exact Hne.
Qed.

(** X14: when a stored value has no [type] attribute, [filter_types]
    raises the [AttributeError] of [task.type] for every type asked for,
    and makes no dictionary. *)
Theorem filter_types_untyped self type h k v :
  dict_at h (data self) !! k = Some v ->
  getattr_type v = Err (AttributeError "type") ->
  filter_types self type h = (Err (AttributeError "type"), h).
Proof.
  intros Hk Hv. unfold filter_types, bind, dict_items, lift.
  rewrite (filter_items_untyped _ type k v); [reflexivity| |exact Hv].
  apply elem_of_map_to_list. exact Hk.
Qed.

End FilterMore.

Lemma filter_types_returns_new_dict_witness :
  store_ab !! 1 = None
  /\ 1 <> data registry0
  /\ dict_at (<[1 := {[ AStr "a" := VInst TaskA ]}]> store_ab) (data registry0)
     = dict_at store_ab (data registry0)
  /\ (forall d', d' <> 1 ->
        (<[1 := {[ AStr "a" := VInst TaskA ]}]> store_ab) !! d'
        = store_ab !! d')
  /\ (forall calls,
        dict_at (mutations (H := contract_host) registry0 calls
                   (<[1 := {[ AStr "a" := VInst TaskA ]}]> store_ab)) 1
        = dict_at (<[1 := {[ AStr "a" := VInst TaskA ]}]> store_ab) 1).
Proof.
  apply (filter_types_returns_new_dict (H := contract_host) registry0
           (AStr "regular") store_ab 1
           (<[1 := {[ AStr "a" := VInst TaskA ]}]> store_ab)).
  - eexists. reflexivity.
  - vm_compute. reflexivity.
Defined.

Lemma filter_types_untyped_witness :
  filter_types registry0 (AStr "periodic")
    {[ 0 := {[ AStr "send_email" := VBool true ]} ]}
  = (Err (AttributeError "type"),
     {[ 0 := {[ AStr "send_email" := VBool true ]} ]}).
Proof.
  apply (filter_types_untyped registry0 (AStr "periodic")
           {[ 0 := {[ AStr "send_email" := VBool true ]} ]}
           (AStr "send_email") (VBool true)); reflexivity.
Defined.
